(** * AndOr: the route handlers of [app/routes.py]

    A shallow embedding of the five Flask view functions ([load_user],
    [index], [people], [login], [logout]).  Every call the handlers make to
    a collaborator (the [py_dataset] store, [flask]'s [flash], [flask_login],
    the form layer, [app.models]) is an event of a small free monad; a
    handler is a finite tree of such calls, and [exec] runs it against a
    [world], returning the response, the final world and the list of calls
    that were made, each with the answer it received. *)

From stdpp Require Import base strings gmap list.

Local Open Scope string_scope.

(** ** Python values *)

(** What a form field's [.data] can hold: nothing, a [str] or a [bool]. *)
Inductive value :=
| VNone
| VStr (s : string)
| VBool (b : bool).

#[global] Instance value_eq_dec : EqDecision value.
Proof. solve_decision. Defined.

(** A Python [dict] with [str] keys, as [People.to_dict()] returns. *)
Abbreviation dict := (gmap string value).

(** [str(b)] for a Python [bool], as an f-string prints it. *)
Definition str_bool (b : bool) : string := if b then "True" else "False".

(** ** Records of [app.models] and [app.forms] *)

(** Modelled from the spec: [app.models.User] (app/models.py is not among
    the sources).  The attributes are the ones [routes.py] reads and the
    ones section 3 of the specification lists. *)
Record User := mkUser {
  username : string;
  display_name : string;
  password_hash : string;
  c_name : string;
  is_authenticated : bool;
  is_active : bool;
  is_anonymous : bool
}.

(** [flask_login.current_user]: the anonymous user, or the bound identity. *)
Inductive current_user :=
| AnonymousUser
| Identity (u : User).

Module cu.
(** [current_user.is_authenticated]; flask_login's anonymous user answers
    [False]. *)
Definition is_authenticated (c : current_user) : bool :=
  match c with
  | AnonymousUser => false
  | Identity u => is_authenticated u
  end.

(** [current_user.username]; the anonymous user has no such attribute, and
    [login] reads it only under the [is_authenticated] guard. *)
Definition username (c : current_user) : string :=
  match c with
  | AnonymousUser => ""
  | Identity u => username u
  end.
End cu.

(** Modelled from the spec: [app.models.People] (app/models.py is not among
    the sources): the string key and the fixed set of descriptive fields
    that [people] assigns. *)
Record People := mkPeople {
  cl_people_id : string;
  family_name : value;
  given_name : value;
  thesis_id : value;
  authors_id : value;
  archivesspace_id : value;
  directory_id : value;
  viaf : value;
  lcnaf : value;
  isni : value;
  wikidata : value;
  snac : value;
  orcid : value;
  image : value;
  educated_at : value;
  caltech : value;
  jpl : value;
  faculty : value;
  alumn : value;
  notes : value
}.

(** Modelled from the spec: [People.to_dict] (app/models.py is not among the
    sources): every attribute under its own name, one to one. *)
Definition to_dict (p : People) : dict :=
  list_to_map
    [ ("cl_people_id", VStr (cl_people_id p));
      ("family_name", family_name p);
      ("given_name", given_name p);
      ("thesis_id", thesis_id p);
      ("authors_id", authors_id p);
      ("archivesspace_id", archivesspace_id p);
      ("directory_id", directory_id p);
      ("viaf", viaf p);
      ("lcnaf", lcnaf p);
      ("isni", isni p);
      ("wikidata", wikidata p);
      ("snac", snac p);
      ("orcid", orcid p);
      ("image", image p);
      ("educated_at", educated_at p);
      ("caltech", caltech p);
      ("jpl", jpl p);
      ("faculty", faculty p);
      ("alumn", alumn p);
      ("notes", notes p) ].
Arguments to_dict : simpl never.

(** Modelled from the spec: [app.forms.PeopleForm] (app/forms.py is not
    among the sources).  Each field projection is the field's [.data];
    [validate_on_submit] is the verdict of the form layer on the request. *)
Module PeopleForm.
Record t := mk {
  validate_on_submit : bool;
  cl_people_id : string;
  family_name : value;
  given_name : value;
  thesis_id : value;
  authors_id : value;
  archivesspace_id : value;
  directory_id : value;
  viaf : value;
  lcnaf : value;
  isni : value;
  wikidata : value;
  snac : value;
  orcid : value;
  image : value;
  educated_at : value;
  caltech : value;
  jpl : value;
  faculty : value;
  alumn : value;
  notes : value
}.
End PeopleForm.

(** Modelled from the spec: [app.forms.LoginForm] (app/forms.py is not among
    the sources). *)
Module LoginForm.
Record t := mk {
  validate_on_submit : bool;
  username : string;
  password : string;
  remember_me : bool
}.
End LoginForm.

(** ** Responses *)

Inductive url := url_for (endpoint : string).

Record post := mkPost { author_username : string; title : string }.

(** The keyword arguments of [render_template] besides [title] and [user]. *)
Inductive context :=
| ctx_posts (posts : list post)
| ctx_people_form (form : PeopleForm.t)
| ctx_login_form (form : LoginForm.t).

(** What a view function hands back to Flask.  [abort code] stands for the
    [HTTPException] that [flask.abort] raises, which ends the handler. *)
Inductive response :=
| redirect (location : url)
| render_template (template title : string) (user : current_user) (ctx : context)
| abort (code : nat).

(** ** Calls to the collaborators *)

Inductive routeE : Type → Type :=
| HasKey (c_name key : string) : routeE bool
| Create (c_name key : string) (obj : dict) : routeE string
| Update (c_name key : string) (obj : dict) : routeE string
| Flash (msg : string) : routeE unit
| Print (msg : string) : routeE unit
| CurrentUser : routeE current_user
| LoginUser (user : User) (remember fresh : bool) : routeE bool
| LogoutUser : routeE bool
| NewUser (user_id : string) : routeE User
| CheckPassword (u : User) (password : string) : routeE bool
| NewPeopleForm : routeE PeopleForm.t
| NewLoginForm : routeE LoginForm.t.

(** A handler: a finite tree of calls ending in a result. *)
Inductive prog (A : Type) : Type :=
| Ret (a : A)
| Vis {X : Type} (e : routeE X) (k : X → prog A).
Arguments Ret {A} a.
Arguments Vis {A X} e k.

Fixpoint bind {A B} (p : prog A) (f : A → prog B) : prog B :=
  match p with
  | Ret a => f a
  | Vis e k => Vis e (λ x, bind (k x) f)
  end.

Definition trigger {X} (e : routeE X) : prog X := Vis e Ret.

Notation "x <- p ;; q" := (bind p (λ x, q))
  (at level 100, p at next level, right associativity).
Notation "p ;; q" := (bind p (λ _, q))
  (at level 100, right associativity).

Module dataset.
Definition has_key (c_name key : string) : prog bool := trigger (HasKey c_name key).
Definition create (c_name key : string) (obj : dict) : prog string :=
  trigger (Create c_name key obj).
Definition update (c_name key : string) (obj : dict) : prog string :=
  trigger (Update c_name key obj).
End dataset.

Definition flash (msg : string) : prog unit := trigger (Flash msg).
Definition print (msg : string) : prog unit := trigger (Print msg).
Definition get_current_user : prog current_user := trigger CurrentUser.
Definition login_user (user : User) (remember fresh : bool) : prog bool :=
  trigger (LoginUser user remember fresh).
Definition logout_user : prog bool := trigger LogoutUser.
Definition new_User (user_id : string) : prog User := trigger (NewUser user_id).
Definition check_password (u : User) (password : string) : prog bool :=
  trigger (CheckPassword u password).
Definition new_PeopleForm : prog PeopleForm.t := trigger NewPeopleForm.
Definition new_LoginForm : prog LoginForm.t := trigger NewLoginForm.

(** ** The handlers *)

(** [cfg]: the names of the two collections. *)
Class Config := {
  USERS : string;
  OBJECTS : string
}.

(** What [str()] makes of the objects the debug messages interpolate. *)
Class Repr := {
  People_str : People → string;
  current_user_str : current_user → string
}.

Section Routes.
Context `{!Config, !Repr}.

Definition load_user (user_id : string) : prog (option User) :=
  let c_name := USERS in
  b <- dataset.has_key c_name user_id ;;
  if negb b then
    flash ("DEBUG load_user(" +:+ user_id +:+ "), failed, " +:+ user_id
           +:+ " not in " +:+ c_name) ;;
    Ret None
  else
    u <- new_User user_id ;;
    flash ("DEBUG load_user(" +:+ user_id +:+ ") -> " +:+ username u +:+ " "
           +:+ display_name u
           +:+ " is_authenticated: " +:+ str_bool (is_authenticated u)
           +:+ ", is_active: " +:+ str_bool (is_active u)
           +:+ ", is_anonymous: " +:+ str_bool (is_anonymous u)) ;;
    Ret (Some u).

Definition index : prog response :=
  let posts :=
    [ mkPost "John" "John's And/Or repository item";
      mkPost "Sarah" "Strange moons of Jupiter item" ] in
  user <- get_current_user ;;
  Ret (render_template "index.html" "Home" user (ctx_posts posts)).

Definition people : prog response :=
  cu <- get_current_user ;;
  if negb (cu.is_authenticated cu) then
    flash "Must be logged in to curate objects" ;;
    Ret (redirect (url_for "login"))
  else
    form <- new_PeopleForm ;;
    (if PeopleForm.validate_on_submit form then
       (* people = People(), then one assignment per attribute from the
          form field of the same name *)
       let people :=
         {| cl_people_id := PeopleForm.cl_people_id form;
            family_name := PeopleForm.family_name form;
            given_name := PeopleForm.given_name form;
            thesis_id := PeopleForm.thesis_id form;
            authors_id := PeopleForm.authors_id form;
            archivesspace_id := PeopleForm.archivesspace_id form;
            directory_id := PeopleForm.directory_id form;
            viaf := PeopleForm.viaf form;
            lcnaf := PeopleForm.lcnaf form;
            isni := PeopleForm.isni form;
            wikidata := PeopleForm.wikidata form;
            snac := PeopleForm.snac form;
            orcid := PeopleForm.orcid form;
            image := PeopleForm.image form;
            educated_at := PeopleForm.educated_at form;
            caltech := PeopleForm.caltech form;
            jpl := PeopleForm.jpl form;
            faculty := PeopleForm.faculty form;
            alumn := PeopleForm.alumn form;
            notes := PeopleForm.notes form |} in
       let c_name := OBJECTS in
       let key := cl_people_id people in
       b <- dataset.has_key c_name key ;;
       if b then
         err <- dataset.update c_name key (to_dict people) ;;
         if negb (String.eqb err "") then
           flash "WARNING: failed to update {key} in {c_name}, {err}"
         else
           flash "{people.cl_people_id} updated"
       else
         print ("DEBUG c_name " +:+ c_name +:+ ", " +:+ key +:+ " -> "
                +:+ People_str people) ;;
         err <- dataset.create c_name key (to_dict people) ;;
         if negb (String.eqb err "") then
           flash "WARNING: failed to create {key} in {c_name}, {err}"
         else
           flash "{people.cl_people_id} created"
     else Ret tt) ;;
    user <- get_current_user ;;
    Ret (render_template "people.html" "People" user (ctx_people_form form)).

Definition login : prog response :=
  cu <- get_current_user ;;
  if cu.is_authenticated cu then
    flash ("DEBUG current user is " +:+ cu.username cu +:+ ", redirecting") ;;
    Ret (redirect (url_for "index"))
  else
    form <- new_LoginForm ;;
    if LoginForm.validate_on_submit form then
      let username_ := LoginForm.username form in
      let password := LoginForm.password form in
      let remember_me := LoginForm.remember_me form in
      u <- new_User username_ ;;
      ok <- check_password u password ;;
      if negb ok then
        flash ("DEBUG " +:+ username u +:+ " or password not found in "
               +:+ c_name u) ;;
        flash "Invalid username or password" ;;
        Ret (abort 401)
      else
        login_user u remember_me true ;;
        cu' <- get_current_user ;;
        flash ("DEBUG " +:+ current_user_str cu'
               +:+ " -> current_user.is_authenticated "
               +:+ str_bool (cu.is_authenticated cu')) ;;
        flash ("DEBUG current user is successfully logged in, " +:+ username u) ;;
        flash "DEBUG redirecting to /" ;;
        flash "Logged in successfully." ;;
        Ret (redirect (url_for "index"))
    else
      user <- get_current_user ;;
      Ret (render_template "login.html" "Sign in" user (ctx_login_form form)).

Definition logout : prog response :=
  logout_user ;;
  Ret (redirect (url_for "index")).
End Routes.

(** ** The collaborators, as interfaces *)

(** [py_dataset.dataset]: a store of named collections of JSON objects.
    [create] and [update] answer the empty string on success and an error
    text otherwise; [read] is the store's own lookup, which [routes.py]
    never calls and which only serves to say what a write left behind. *)
Class Dataset (store : Type) := {
  ds_has_key : store → string → string → bool;
  ds_create : store → string → string → dict → store * string;
  ds_update : store → string → string → dict → store * string;
  ds_read : store → string → string → option dict
}.

(** The two operations of [app.models.User] that [routes.py] calls: the
    constructor [User(user_id)], which consults the store, and
    [u.check_password(password)]. *)
Class Models (store : Type) := {
  User_init : store → string → User;
  User_check_password : User → string → bool
}.

(** ** Running a handler *)

Section Exec.
Context {store : Type} `{!Dataset store, !Models store}.

(** What a request sees: the store, the session cookie's user id, the
    identity flask_login has bound to [current_user], and the two forms as
    the form layer builds them from the request. *)
Record world := mkWorld {
  w_store : store;
  w_session : option string;
  w_current_user : current_user;
  w_people_form : PeopleForm.t;
  w_login_form : LoginForm.t
}.

Definition set_store (s : store) (w : world) : world :=
  mkWorld s (w_session w) (w_current_user w) (w_people_form w) (w_login_form w).

Definition set_identity (sid : option string) (c : current_user) (w : world) : world :=
  mkWorld (w_store w) sid c (w_people_form w) (w_login_form w).

(** The answer of the collaborators to one call, and its effect.
    [login_user] refuses an inactive user (flask_login's default, the
    handler does not pass [force]); [logout_user] drops the session's user
    id and rebinds [current_user] to the anonymous user. *)
Definition handle {X} (e : routeE X) (w : world) : X * world :=
  match e in routeE X return X * world with
  | HasKey c k => (ds_has_key (w_store w) c k, w)
  | Create c k obj =>
      let '(s, err) := ds_create (w_store w) c k obj in (err, set_store s w)
  | Update c k obj =>
      let '(s, err) := ds_update (w_store w) c k obj in (err, set_store s w)
  | Flash _ => (tt, w)
  | Print _ => (tt, w)
  | CurrentUser => (w_current_user w, w)
  | LoginUser u _ _ =>
      if is_active u
      then (true, set_identity (Some (username u)) (Identity u) w)
      else (false, w)
  | LogoutUser => (true, set_identity None AnonymousUser w)
  | NewUser user_id => (User_init (w_store w) user_id, w)
  | CheckPassword u password => (User_check_password u password, w)
  | NewPeopleForm => (w_people_form w, w)
  | NewLoginForm => (w_login_form w, w)
  end.

(** One call together with the answer it got. *)
Inductive call :=
| Call {X : Type} (e : routeE X) (x : X).

Record outcome (A : Type) := mkOutcome {
  result : A;
  after : world;
  trace : list call
}.
Arguments mkOutcome {A} _ _ _.
Arguments result {A} _.
Arguments after {A} _.
Arguments trace {A} _.

Fixpoint exec {A} (p : prog A) (w : world) : outcome A :=
  match p with
  | Ret a => mkOutcome a w []
  | Vis e k =>
      let '(x, w1) := handle e w in
      let o := exec (k x) w1 in
      mkOutcome (result o) (after o) (Call e x :: trace o)
  end.

(** *** Reading a trace *)

Inductive store_call :=
| has_key_call (c_name key : string) (answer : bool)
| create_call (c_name key : string) (obj : dict) (err : string)
| update_call (c_name key : string) (obj : dict) (err : string).

Definition as_store_call (c : call) : option store_call :=
  match c with
  | Call e x =>
      match e in routeE X return X → option store_call with
      | HasKey c k => λ b, Some (has_key_call c k b)
      | Create c k obj => λ err, Some (create_call c k obj err)
      | Update c k obj => λ err, Some (update_call c k obj err)
      | _ => λ _, None
      end x
  end.

Definition as_flash (c : call) : option string :=
  match c with
  | Call e _ => match e with Flash msg => Some msg | _ => None end
  end.

Definition as_login (c : call) : option User :=
  match c with
  | Call e _ => match e with LoginUser u _ _ => Some u | _ => None end
  end.

(** The store calls of a trace, the messages flashed, and the users handed
    to [login_user], each in order. *)
Definition store_calls (tr : list call) : list store_call := omap as_store_call tr.
Definition flashed (tr : list call) : list string := omap as_flash tr.
Definition logins (tr : list call) : list User := omap as_login tr.

Definition is_has_key (c : store_call) : bool :=
  match c with has_key_call _ _ _ => true | _ => false end.
Definition is_create (c : store_call) : bool :=
  match c with create_call _ _ _ _ => true | _ => false end.
Definition is_update (c : store_call) : bool :=
  match c with update_call _ _ _ _ => true | _ => false end.

Definition count (f : store_call → bool) (tr : list call) : nat :=
  length (List.filter f (store_calls tr)).

(** *** Requests *)

(** flask_login's restoration of [current_user] at the start of a request:
    a session without user id is anonymous; otherwise the registered
    [user_loader] is asked, and its [None] leaves the anonymous user. *)
Definition reload_user `{!Config, !Repr} (w : world) : outcome unit :=
  match w_session w with
  | None => mkOutcome tt (set_identity None AnonymousUser w) []
  | Some user_id =>
      let o := exec (load_user user_id) w in
      let c := match result o with
               | None => AnonymousUser
               | Some u => Identity u
               end in
      mkOutcome tt (set_identity (w_session w) c (after o)) (trace o)
  end.
End Exec.


Arguments world : clear implicits.
Arguments outcome : clear implicits.
Arguments mkOutcome {store A} _ _ _.
Arguments result {store A} _.
Arguments after {store A} _.
Arguments trace {store A} _.

(** ** A reference store

    An in-memory implementation of the [Dataset] interface, used to run the
    handlers on concrete requests: a collection is a finite map from keys to
    objects.  [create] refuses a missing collection and a key that is
    already there, [update] refuses a missing collection and a missing
    key. *)
Module MemStore.
Abbreviation t := (gmap string (gmap string dict)).

Definition has_key (s : t) (c_name key : string) : bool :=
  match s !! c_name with
  | None => false
  | Some c => bool_decide (is_Some (c !! key))
  end.

Definition create (s : t) (c_name key : string) (obj : dict) : t * string :=
  match s !! c_name with
  | None => (s, "collection not found")
  | Some c =>
      match c !! key with
      | Some _ => (s, "key already exists")
      | None => (<[c_name := <[key := obj]> c]> s, "")
      end
  end.

Definition update (s : t) (c_name key : string) (obj : dict) : t * string :=
  match s !! c_name with
  | None => (s, "collection not found")
  | Some c =>
      match c !! key with
      | None => (s, "key not found")
      | Some _ => (<[c_name := <[key := obj]> c]> s, "")
      end
  end.

Definition read (s : t) (c_name key : string) : option dict :=
  c ← s !! c_name; c !! key.

#[global] Instance dataset : Dataset t := {
  ds_has_key := has_key;
  ds_create := create;
  ds_update := update;
  ds_read := read
}.

(** A user record as the identity collection keeps it. *)
Definition str_field (o : dict) (name : string) : string :=
  match o !! name with
  | Some (VStr s) => s
  | _ => ""
  end.

(** Modelled from the spec: [User.__init__] and [User.check_password]
    (app/models.py is not among the sources).  A loaded identity is not
    yet authenticated, is active and is not anonymous; the password hash
    is the one the stored record holds, and [digest] is the hash
    function. *)
Definition User_of (users : string) (s : t) (user_id : string) : User :=
  let o := default ∅ (read s users user_id) in
  {| username := user_id;
     display_name := str_field o "display_name";
     password_hash := str_field o "password";
     c_name := users;
     is_authenticated := false;
     is_active := true;
     is_anonymous := false |}.

Definition models (users : string) (digest : string → string) : Models t := {|
  User_init := User_of users;
  User_check_password := λ u candidate, String.eqb (digest candidate) (password_hash u)
|}.
End MemStore.

(** ** What a well-behaved store promises

    The handlers work against any [Dataset]; where a property speaks of what
    the store holds after a write, it is stated for stores in which a write
    that reports success can be read back. *)
Class DatasetLaws (store : Type) `{!Dataset store} : Prop := {
  has_key_read s c k : ds_has_key s c k = true ↔ is_Some (ds_read s c k);
  create_read s c k obj s' : ds_create s c k obj = (s', "") → ds_read s' c k = Some obj;
  update_read s c k obj s' : ds_update s c k obj = (s', "") → ds_read s' c k = Some obj
}.

(** The record a People submission describes: each attribute is the form
    field of the same name. *)
Definition record_of (form : PeopleForm.t) : People :=
  {| cl_people_id := PeopleForm.cl_people_id form;
     family_name := PeopleForm.family_name form;
     given_name := PeopleForm.given_name form;
     thesis_id := PeopleForm.thesis_id form;
     authors_id := PeopleForm.authors_id form;
     archivesspace_id := PeopleForm.archivesspace_id form;
     directory_id := PeopleForm.directory_id form;
     viaf := PeopleForm.viaf form;
     lcnaf := PeopleForm.lcnaf form;
     isni := PeopleForm.isni form;
     wikidata := PeopleForm.wikidata form;
     snac := PeopleForm.snac form;
     orcid := PeopleForm.orcid form;
     image := PeopleForm.image form;
     educated_at := PeopleForm.educated_at form;
     caltech := PeopleForm.caltech form;
     jpl := PeopleForm.jpl form;
     faculty := PeopleForm.faculty form;
     alumn := PeopleForm.alumn form;
     notes := PeopleForm.notes form |}.

(** ** Vocabulary of the properties *)

Section Vocabulary.
Context {store : Type} `{!Dataset store, !Models store}.
Implicit Types w : world store.

(** The session is Authenticated when [current_user.is_authenticated]
    holds, Anonymous otherwise. *)
Definition authenticated w : Prop := cu.is_authenticated (w_current_user w) = true.
Definition anonymous w : Prop := cu.is_authenticated (w_current_user w) = false.

(** The request carries a People (resp. login) submission that the form
    layer validates. *)
Definition people_submission w : Prop :=
  PeopleForm.validate_on_submit (w_people_form w) = true.
Definition login_submission w : Prop :=
  LoginForm.validate_on_submit (w_login_form w) = true.

(** The view [people] renders. *)
Definition people_view w : response :=
  render_template "people.html" "People" (w_current_user w)
    (ctx_people_form (w_people_form w)).

(** The identity [login] builds from the submitted username. *)
Definition submitted_user w : User :=
  User_init (w_store w) (LoginForm.username (w_login_form w)).

(** The verdict of [check_password] on that identity and the submitted
    password. *)
Definition password_ok w : bool :=
  User_check_password (submitted_user w) (LoginForm.password (w_login_form w)).
End Vocabulary.

(** ** Concrete requests

    A configuration, a reference store and a handful of requests on which
    the handlers are run. *)
Module Demo.
#[global] Instance cfg : Config := {| USERS := "users"; OBJECTS := "objects" |}.

#[global] Instance repr : Repr := {|
  People_str := λ p, "<People " +:+ cl_people_id p +:+ ">";
  current_user_str := λ c, match c with
                           | AnonymousUser => "<AnonymousUser>"
                           | Identity u => "<User " +:+ username u +:+ ">"
                           end
|}.

Definition digest (s : string) : string := "sha:" +:+ s.

#[global] Instance models : Models MemStore.t := MemStore.models "users" digest.

Definition blank : value := VStr "".

Definition submission (ok : bool) (key : string) (family given : value) : PeopleForm.t :=
  PeopleForm.mk ok key family given blank blank blank blank blank blank blank
    blank blank blank blank blank (VBool false) (VBool false) (VBool false)
    (VBool false) blank.

Definition no_people : PeopleForm.t := submission false "" blank blank.
Definition no_login : LoginForm.t := LoginForm.mk false "" "" false.

(** The record of the specification's example, as first submitted. *)
Definition smith : dict :=
  to_dict (record_of (submission true "smith-j" (VStr "Smith") (VStr "Jane"))).

Definition store0 : MemStore.t :=
  {[ "users" := {[ "alice" := {[ "display_name" := VStr "Alice";
                                 "password" := VStr "sha:secret" ]} ]};
     "objects" := {[ "smith-j" := smith ]} ]}.

(** A store whose People collection was never initialised. *)
Definition store_broken : MemStore.t :=
  {[ "users" := {[ "alice" := {[ "display_name" := VStr "Alice";
                                 "password" := VStr "sha:secret" ]} ]} ]}.

Definition alice : User :=
  mkUser "alice" "Alice" "sha:secret" "users" true true false.

Definition signed_in (s : MemStore.t) (form : PeopleForm.t) : world MemStore.t :=
  mkWorld s (Some "alice") (Identity alice) form no_login.

Definition visitor (form : LoginForm.t) : world MemStore.t :=
  mkWorld store0 None AnonymousUser no_people form.

Definition w_create := signed_in store0 (submission true "doe-j" (VStr "Doe") (VStr "John")).
Definition w_update := signed_in store0 (submission true "smith-j" (VStr "Smith-Jones") blank).
Definition w_broken := signed_in store_broken (submission true "doe-j" (VStr "Doe") blank).
Definition w_anonymous : world MemStore.t :=
  mkWorld store0 None AnonymousUser (submission true "doe-j" (VStr "Doe") blank) no_login.
Definition w_bad_password := visitor (LoginForm.mk true "alice" "guess" false).
Definition w_unknown_user := visitor (LoginForm.mk true "mallory" "guess" false).
Definition w_good_password := visitor (LoginForm.mk true "alice" "secret" true).
Definition w_stale_session : world MemStore.t :=
  mkWorld store0 (Some "ghost") AnonymousUser no_people no_login.
End Demo.

(** ** Further vocabulary and requests *)

(** The collection and the key a store call names. *)
Definition sc_collection (c : store_call) : string :=
  match c with
  | has_key_call c_name _ _ => c_name
  | create_call c_name _ _ _ => c_name
  | update_call c_name _ _ _ => c_name
  end.

Definition sc_key (c : store_call) : string :=
  match c with
  | has_key_call _ key _ => key
  | create_call _ key _ _ => key
  | update_call _ key _ _ => key
  end.

(** A call that writes: [create] or [update]. *)
Definition is_write (c : store_call) : bool := is_create c || is_update c.

(** The user ids handed to the constructor [User(...)], and the passwords
    handed to [check_password], in order. *)
Definition as_new_user (c : call) : option string :=
  match c with
  | Call e _ => match e with NewUser user_id => Some user_id | _ => None end
  end.

Definition as_password_check (c : call) : option string :=
  match c with
  | Call e _ => match e with CheckPassword _ password => Some password | _ => None end
  end.

Definition constructed (tr : list call) : list string := omap as_new_user tr.
Definition checked (tr : list call) : list string := omap as_password_check tr.


(** The view [login] renders. *)
Definition login_view {store : Type} (w : world store) : response :=
  render_template "login.html" "Sign in" (w_current_user w)
    (ctx_login_form (w_login_form w)).

(** The view [index] renders, with its two fixed posts. *)
Definition home_view {store : Type} (w : world store) : response :=
  render_template "index.html" "Home" (w_current_user w)
    (ctx_posts [ mkPost "John" "John's And/Or repository item";
                 mkPost "Sarah" "Strange moons of Jupiter item" ]).

(** The error text of the write the upsert performs on [w]: of [update] when
    the submitted key exists, of [create] when it does not. *)
Definition write_error {store : Type} `{!Dataset store, !Config} (w : world store) : string :=
  let form := w_people_form w in
  let key := PeopleForm.cl_people_id form in
  let obj := to_dict (record_of form) in
  if ds_has_key (w_store w) OBJECTS key
  then (ds_update (w_store w) OBJECTS key obj).2
  else (ds_create (w_store w) OBJECTS key obj).2.

Module Cases.
(** A variant of the reference identities in which every account is
    suspended: [is_active] is [False]. *)
Definition suspended (u : User) : User :=
  mkUser (username u) (display_name u) (password_hash u) (c_name u)
    (is_authenticated u) false (is_anonymous u).

Definition suspended_models : Models MemStore.t := {|
  User_init := λ s user_id, suspended (MemStore.User_of "users" s user_id);
  User_check_password := λ u candidate,
    String.eqb (Demo.digest candidate) (password_hash u)
|}.

(** A session cookie that names a user the identity collection has. *)
Definition w_known_session : world MemStore.t :=
  mkWorld Demo.store0 (Some "alice") AnonymousUser Demo.no_people Demo.no_login.

(** A signed-in request to the login page. *)
Definition w_login_again : world MemStore.t :=
  mkWorld Demo.store0 (Some "alice") (Identity Demo.alice) Demo.no_people
    (LoginForm.mk true "alice" "secret" false).

(** A visitor asking for the login page. *)
Definition w_get_login : world MemStore.t := Demo.visitor Demo.no_login.


(** A variant of the reference identities after flask_login's [UserMixin]:
    a constructed [User] answers [is_authenticated] with [True]. *)
Definition verified (u : User) : User :=
  mkUser (username u) (display_name u) (password_hash u) (c_name u)
    true (is_active u) (is_anonymous u).

Definition mixin_models : Models MemStore.t := {|
  User_init := λ s user_id, verified (MemStore.User_of "users" s user_id);
  User_check_password := λ u candidate,
    String.eqb (Demo.digest candidate) (password_hash u)
|}.
End Cases.

(** ** Properties of the handlers *)

#[global] Instance MemStore_laws : DatasetLaws MemStore.t.
Proof.
  split; cbn.
  - intros s c k. unfold MemStore.has_key, MemStore.read.
    destruct (s !! c) as [col|]; cbn.
    + by rewrite bool_decide_eq_true.
    + split; [done | by intros [? ?]].
  - intros s c k obj s'. unfold MemStore.create, MemStore.read.
    destruct (s !! c) as [col|]; [|done].
    destruct (col !! k); [done|].
    intros [= <-]. rewrite lookup_insert_eq. cbn. apply lookup_insert_eq.
  - intros s c k obj s'. unfold MemStore.update, MemStore.read.
    destruct (s !! c) as [col|]; [|done].
    destruct (col !! k); [|done].
    intros [= <-]. rewrite lookup_insert_eq. cbn. apply lookup_insert_eq.
Qed.

Section Properties.
Context {store : Type} `{!Dataset store, !Models store, !Config, !Repr}.
Implicit Types w : world store.

Lemma exec_bind {A B} (p : prog A) (f : A → prog B) w :
  exec (bind p f) w =
    let o1 := exec p w in
    let o2 := exec (f (result o1)) (after o1) in
    mkOutcome (result o2) (after o2) (trace o1 ++ trace o2)%list.
Proof.
  revert w. induction p as [a|X e k IH]; intros w; cbn.
  - by destruct (exec (f a) w).
  - destruct (handle e w) as [x w1]. rewrite IH. done.
Qed.

Lemma exec_people_anonymous w :
  anonymous w →
  exec people w =
    mkOutcome (redirect (url_for "login")) w
      [ Call CurrentUser (w_current_user w);
        Call (Flash "Must be logged in to curate objects") tt ].
Proof. unfold anonymous, people. intros Hanon. cbn. by rewrite Hanon. Qed.

Lemma exec_people_not_validated w :
  authenticated w →
  PeopleForm.validate_on_submit (w_people_form w) = false →
  exec people w =
    mkOutcome (people_view w) w
      [ Call CurrentUser (w_current_user w);
        Call NewPeopleForm (w_people_form w);
        Call CurrentUser (w_current_user w) ].
Proof.
  unfold authenticated, people. intros Hauth Hval. cbn.
  rewrite Hauth. cbn. by rewrite Hval.
Qed.

Lemma exec_people_update w :
  authenticated w → people_submission w →
  let form := w_people_form w in
  let key := PeopleForm.cl_people_id form in
  let obj := to_dict (record_of form) in
  let r := ds_update (w_store w) OBJECTS key obj in
  ds_has_key (w_store w) OBJECTS key = true →
  exec people w =
    mkOutcome (people_view w) (set_store r.1 w)
      [ Call CurrentUser (w_current_user w);
        Call NewPeopleForm form;
        Call (HasKey OBJECTS key) true;
        Call (Update OBJECTS key obj) r.2;
        Call (Flash (if negb (String.eqb r.2 "")
                     then "WARNING: failed to update {key} in {c_name}, {err}"
                     else "{people.cl_people_id} updated")) tt;
        Call CurrentUser (w_current_user w) ].
Proof.
  unfold authenticated, people_submission, people. intros Hauth Hval.
  cbn zeta. intros Hkey. cbn. rewrite Hauth. cbn. rewrite Hval. cbn.
  rewrite Hkey. cbn. fold (record_of (w_people_form w)).
  destruct (ds_update _ _ _ _) as [s err]. cbn.
  by destruct (String.eqb err "").
Qed.

Lemma exec_people_create w :
  authenticated w → people_submission w →
  let form := w_people_form w in
  let key := PeopleForm.cl_people_id form in
  let obj := to_dict (record_of form) in
  let r := ds_create (w_store w) OBJECTS key obj in
  ds_has_key (w_store w) OBJECTS key = false →
  exec people w =
    mkOutcome (people_view w) (set_store r.1 w)
      [ Call CurrentUser (w_current_user w);
        Call NewPeopleForm form;
        Call (HasKey OBJECTS key) false;
        Call (Print ("DEBUG c_name " +:+ OBJECTS +:+ ", " +:+ key +:+ " -> "
                     +:+ People_str (record_of form))) tt;
        Call (Create OBJECTS key obj) r.2;
        Call (Flash (if negb (String.eqb r.2 "")
                     then "WARNING: failed to create {key} in {c_name}, {err}"
                     else "{people.cl_people_id} created")) tt;
        Call CurrentUser (w_current_user w) ].
Proof.
  unfold authenticated, people_submission, people. intros Hauth Hval.
  cbn zeta. intros Hkey. cbn. rewrite Hauth. cbn. rewrite Hval. cbn.
  rewrite Hkey. cbn. fold (record_of (w_people_form w)).
  destruct (ds_create _ _ _ _) as [s err]. cbn.
  by destruct (String.eqb err "").
Qed.
(** *** The People upsert *)

(** C1: on a validated People submission the handler asks
    [has_key(OBJECTS, cl_people_id)] exactly once, and the answer alone
    picks the write: [update] and no [create] when the key exists,
    [create] and no [update] when it does not; either way the object
    written is the whole mapped record. *)
Theorem people_upsert_decided_by_has_key w :
  authenticated w → people_submission w →
  let form := w_people_form w in
  let key := PeopleForm.cl_people_id form in
  let obj := to_dict (record_of form) in
  let o := exec people w in
  count is_has_key (trace o) = 1 ∧
  (ds_has_key (w_store w) OBJECTS key = true →
     store_calls (trace o) =
       [ has_key_call OBJECTS key true;
         update_call OBJECTS key obj (ds_update (w_store w) OBJECTS key obj).2 ]
     ∧ count is_update (trace o) = 1 ∧ count is_create (trace o) = 0) ∧
  (ds_has_key (w_store w) OBJECTS key = false →
     store_calls (trace o) =
       [ has_key_call OBJECTS key false;
         create_call OBJECTS key obj (ds_create (w_store w) OBJECTS key obj).2 ]
     ∧ count is_create (trace o) = 1 ∧ count is_update (trace o) = 0).
Proof.
  intros Hauth Hval form key obj o. subst o.
  destruct (ds_has_key (w_store w) OBJECTS key) eqn:Hkey.
  - rewrite (exec_people_update w Hauth Hval Hkey). cbn.
    split; [done|]. split; [done|]. by intros [=].
  - rewrite (exec_people_create w Hauth Hval Hkey). cbn.
    split; [done|]. split; [by intros [=]|done].
Qed.

(** C2: on a validated People submission the response is the people view
    whatever the store answered; when [update] or [create] answered a
    non-empty error, the one message flashed is the warning of that
    branch. *)
Theorem people_store_failure_still_renders w :
  authenticated w → people_submission w →
  let o := exec people w in
  result o = people_view w ∧
  (∀ c k obj err,
     update_call c k obj err ∈ store_calls (trace o) → err ≠ "" →
     flashed (trace o) = ["WARNING: failed to update {key} in {c_name}, {err}"]) ∧
  (∀ c k obj err,
     create_call c k obj err ∈ store_calls (trace o) → err ≠ "" →
     flashed (trace o) = ["WARNING: failed to create {key} in {c_name}, {err}"]).
Proof.
  intros Hauth Hval o. subst o.
  destruct (ds_has_key (w_store w) OBJECTS (PeopleForm.cl_people_id (w_people_form w)))
    eqn:Hkey.
  - rewrite (exec_people_update w Hauth Hval Hkey). cbn.
    split; [done|]. split.
    + intros c k obj err Hin Herr.
      apply elem_of_cons in Hin as [[=]|Hin].
      apply elem_of_cons in Hin as [[= -> -> -> Herr']|Hin]; [|by apply elem_of_nil in Hin].
      apply String.eqb_neq in Herr. rewrite <- Herr'. by rewrite Herr.
    + intros c k obj err Hin _.
      apply elem_of_cons in Hin as [[=]|Hin].
      apply elem_of_cons in Hin as [[=]|Hin]. by apply elem_of_nil in Hin.
  - rewrite (exec_people_create w Hauth Hval Hkey). cbn.
    split; [done|]. split.
    + intros c k obj err Hin _.
      apply elem_of_cons in Hin as [[=]|Hin].
      apply elem_of_cons in Hin as [[=]|Hin]. by apply elem_of_nil in Hin.
    + intros c k obj err Hin Herr.
      apply elem_of_cons in Hin as [[=]|Hin].
      apply elem_of_cons in Hin as [[= -> -> -> Herr']|Hin]; [|by apply elem_of_nil in Hin].
      apply String.eqb_neq in Herr. rewrite <- Herr'. by rewrite Herr.
Qed.

(** C5: a request to [/people] on an Anonymous session is redirected to the
    login view; nothing is asked of the store, no form is built, and the
    world is left as it was. *)
Theorem people_anonymous_redirects w :
  anonymous w →
  let o := exec people w in
  result o = redirect (url_for "login") ∧
  store_calls (trace o) = [] ∧
  trace o = [ Call CurrentUser (w_current_user w);
              Call (Flash "Must be logged in to curate objects") tt ] ∧
  after o = w.
Proof. intros Hanon o. subst o. by rewrite (exec_people_anonymous w Hanon). Qed.

(** C6: on a validated People submission whose key the store already has,
    there is one [update] call and no [create] call; the object handed to
    [update] is the mapped submission and nothing else, so its
    [given_name] is the submitted one, blank if it was left blank; and
    when the store reports success, that object is what the store then
    holds under the key. *)
Theorem people_existing_key_overwritten `{!DatasetLaws store} w :
  authenticated w → people_submission w →
  let form := w_people_form w in
  let key := PeopleForm.cl_people_id form in
  let obj := to_dict (record_of form) in
  let o := exec people w in
  ds_has_key (w_store w) OBJECTS key = true →
  count is_update (trace o) = 1 ∧ count is_create (trace o) = 0 ∧
  store_calls (trace o) =
    [ has_key_call OBJECTS key true;
      update_call OBJECTS key obj (ds_update (w_store w) OBJECTS key obj).2 ] ∧
  obj !! "given_name" = Some (PeopleForm.given_name form) ∧
  ((ds_update (w_store w) OBJECTS key obj).2 = "" →
     ds_read (w_store (after o)) OBJECTS key = Some obj).
Proof.
  intros Hauth Hval form key obj o Hkey. subst o.
  rewrite (exec_people_update w Hauth Hval Hkey). cbn.
  repeat (split; [done|]).
  intros Herr. apply (update_read (w_store w)). fold form key obj.
  destruct (ds_update (w_store w) OBJECTS key obj) as [s err].
  cbn in *. by rewrite Herr.
Qed.

(** C9: the message flashed after the upsert is one of four fixed texts,
    chosen by the branch and by whether an error came back; the braces in
    them are literal, so none of them carries the key, the collection
    name or the error text. *)
Theorem people_flash_literals w :
  authenticated w → people_submission w →
  let form := w_people_form w in
  let key := PeopleForm.cl_people_id form in
  let obj := to_dict (record_of form) in
  let found := ds_has_key (w_store w) OBJECTS key in
  let err := if found
             then (ds_update (w_store w) OBJECTS key obj).2
             else (ds_create (w_store w) OBJECTS key obj).2 in
  flashed (trace (exec people w)) =
    [ match found, String.eqb err "" with
      | true, false => "WARNING: failed to update {key} in {c_name}, {err}"
      | true, true => "{people.cl_people_id} updated"
      | false, false => "WARNING: failed to create {key} in {c_name}, {err}"
      | false, true => "{people.cl_people_id} created"
      end ].
Proof.
  intros Hauth Hval form key obj found err. subst err found.
  destruct (ds_has_key (w_store w) OBJECTS key) eqn:Hkey.
  - rewrite (exec_people_update w Hauth Hval Hkey). cbn. fold form key obj.
    by destruct (String.eqb _ "").
  - rewrite (exec_people_create w Hauth Hval Hkey). cbn. fold form key obj.
    by destruct (String.eqb _ "").
Qed.
(** *** The authentication gate *)

Lemma exec_login_rejected w :
  anonymous w → login_submission w → password_ok w = false →
  let form := w_login_form w in
  let u := submitted_user w in
  exec login w =
    mkOutcome (abort 401) w
      [ Call CurrentUser (w_current_user w);
        Call NewLoginForm form;
        Call (NewUser (LoginForm.username form)) u;
        Call (CheckPassword u (LoginForm.password form)) false;
        Call (Flash ("DEBUG " +:+ username u +:+ " or password not found in "
                     +:+ c_name u)) tt;
        Call (Flash "Invalid username or password") tt ].
Proof.
  unfold anonymous, login_submission, password_ok, submitted_user, login.
  intros Hanon Hval Hpw. cbn. rewrite Hanon. cbn. rewrite Hval. cbn.
  by rewrite Hpw.
Qed.

Lemma exec_login_accepted w :
  anonymous w → login_submission w → password_ok w = true →
  let form := w_login_form w in
  let u := submitted_user w in
  let w' := if is_active u
            then set_identity (Some (username u)) (Identity u) w
            else w in
  exec login w =
    mkOutcome (redirect (url_for "index")) w'
      [ Call CurrentUser (w_current_user w);
        Call NewLoginForm form;
        Call (NewUser (LoginForm.username form)) u;
        Call (CheckPassword u (LoginForm.password form)) true;
        Call (LoginUser u (LoginForm.remember_me form) true) (is_active u);
        Call CurrentUser (w_current_user w');
        Call (Flash ("DEBUG " +:+ current_user_str (w_current_user w')
                     +:+ " -> current_user.is_authenticated "
                     +:+ str_bool (cu.is_authenticated (w_current_user w')))) tt;
        Call (Flash ("DEBUG current user is successfully logged in, "
                     +:+ username u)) tt;
        Call (Flash "DEBUG redirecting to /") tt;
        Call (Flash "Logged in successfully.") tt ].
Proof.
  unfold anonymous, login_submission, password_ok, submitted_user, login.
  intros Hanon Hval Hpw. cbn. rewrite Hanon. cbn. rewrite Hval. cbn.
  rewrite Hpw. cbn. by destruct (is_active _).
Qed.

(** C4: a login submission on an Anonymous session whose password
    [check_password] rejects is answered with [abort(401)]; [login_user]
    is never called, and the world, so the session, is what it was: still
    Anonymous. *)
Theorem login_wrong_password_unauthorized w :
  anonymous w → login_submission w → password_ok w = false →
  let o := exec login w in
  result o = abort 401 ∧
  logins (trace o) = [] ∧
  after o = w ∧
  anonymous (after o).
Proof.
  intros Hanon Hval Hpw o. subst o.
  by rewrite (exec_login_rejected w Hanon Hval Hpw).
Qed.

(** C10: on a validated login submission the handler asks the store
    nothing: right after building the form it constructs [User(username)]
    and calls [check_password] on it, and that boolean alone separates the
    redirect after [login_user] from [abort(401)]. *)
Theorem login_decided_by_check_password w :
  anonymous w → login_submission w →
  let form := w_login_form w in
  let u := submitted_user w in
  let o := exec login w in
  store_calls (trace o) = [] ∧
  take 4 (trace o) =
    [ Call CurrentUser (w_current_user w);
      Call NewLoginForm form;
      Call (NewUser (LoginForm.username form)) u;
      Call (CheckPassword u (LoginForm.password form)) (password_ok w) ] ∧
  result o = (if password_ok w then redirect (url_for "index") else abort 401) ∧
  logins (trace o) = (if password_ok w then [u] else []).
Proof.
  intros Hanon Hval form u o. subst o.
  destruct (password_ok w) eqn:Hpw.
  - by rewrite (exec_login_accepted w Hanon Hval Hpw).
  - by rewrite (exec_login_rejected w Hanon Hval Hpw).
Qed.

(** C7: [logout] always answers with the redirect to the home view and
    leaves no identity bound; a second [logout] answers the same and
    changes nothing more, and on a session that is already anonymous it
    changes nothing at all. *)
Theorem logout_idempotent w :
  let o := exec logout w in
  let signed_out := set_identity None AnonymousUser w in
  result o = redirect (url_for "index") ∧
  after o = signed_out ∧
  w_current_user (after o) = AnonymousUser ∧ w_session (after o) = None ∧
  anonymous (after o) ∧
  exec logout (after o) = mkOutcome (result o) (after o) (trace o) ∧
  after (exec logout signed_out) = signed_out.
Proof. done. Qed.

(** C8: for a user id the identity collection does not have, [load_user]
    returns [None] after its one [has_key] call and its debug message, and
    changes nothing; the session restoration that called it then binds
    the anonymous user. *)
Theorem load_user_missing_is_none w (user_id : string) :
  ds_has_key (w_store w) USERS user_id = false →
  let o := exec (load_user user_id) w in
  result o = None ∧
  after o = w ∧
  trace o =
    [ Call (HasKey USERS user_id) false;
      Call (Flash ("DEBUG load_user(" +:+ user_id +:+ "), failed, " +:+ user_id
                   +:+ " not in " +:+ USERS)) tt ] ∧
  (w_session w = Some user_id →
     w_current_user (after (reload_user w)) = AnonymousUser ∧
     anonymous (after (reload_user w))).
Proof.
  intros Hkey o. subst o. unfold reload_user, load_user. cbn.
  rewrite Hkey. cbn. repeat (split; [done|]).
  intros ->. cbn. by rewrite Hkey.
Qed.
End Properties.

(** The specification's example: "smith-j" is created with family name
    Smith and given name Jane; submitted again with only the family name
    Smith-Jones, the stored given name is blank. *)
Example smith_resubmitted_given_name_blank :
  let o := exec people Demo.w_update in
  (ds_read (w_store Demo.w_update) "objects" "smith-j" ≫= (.!! "given_name")) = Some (VStr "Jane") ∧
  (ds_read (w_store (after o)) "objects" "smith-j" ≫= (.!! "given_name")) = Some (VStr "") ∧
  (ds_read (w_store (after o)) "objects" "smith-j" ≫= (.!! "family_name"))
    = Some (VStr "Smith-Jones") ∧
  flashed (trace o) = ["{people.cl_people_id} updated"].
Proof. vm_compute. done. Qed.

(** A first submission of a key is created, and the key exists afterwards. *)
Example doe_created_then_exists :
  let o := exec people Demo.w_create in
  count is_create (trace o) = 1 ∧
  ds_has_key (w_store (after o)) "objects" "doe-j" = true.
Proof. vm_compute. done. Qed.

(** ** The properties on concrete requests *)

Lemma people_upsert_decided_by_has_key_witness :
  authenticated Demo.w_update ∧ people_submission Demo.w_update ∧
  count is_has_key (trace (exec people Demo.w_update)) = 1 ∧
  count is_update (trace (exec people Demo.w_update)) = 1 ∧
  count is_create (trace (exec people Demo.w_update)) = 0.
Proof.
  destruct (people_upsert_decided_by_has_key Demo.w_update)
    as (Hone & Hupd & _); [reflexivity..|].
  destruct Hupd as (_ & Hu & Hc); [reflexivity|].
  exact (conj eq_refl (conj eq_refl (conj Hone (conj Hu Hc)))).
Defined.

Lemma people_store_failure_still_renders_witness :
  authenticated Demo.w_broken ∧ people_submission Demo.w_broken ∧
  result (exec people Demo.w_broken) = people_view Demo.w_broken ∧
  flashed (trace (exec people Demo.w_broken))
    = ["WARNING: failed to create {key} in {c_name}, {err}"].
Proof.
  destruct (people_store_failure_still_renders Demo.w_broken)
    as (Hview & _ & Hcreate); [reflexivity..|].
  refine (conj eq_refl (conj eq_refl (conj Hview _))).
  apply (Hcreate "objects" "doe-j"
           (to_dict (record_of (w_people_form Demo.w_broken))) "collection not found").
  - apply elem_of_cons. right. apply elem_of_cons. left. reflexivity.
  - discriminate.
Defined.


Lemma people_anonymous_redirects_witness :
  anonymous Demo.w_anonymous ∧
  result (exec people Demo.w_anonymous) = redirect (url_for "login") ∧
  store_calls (trace (exec people Demo.w_anonymous)) = [].
Proof.
  destruct (people_anonymous_redirects Demo.w_anonymous)
    as (Hr & Hs & _); [reflexivity|].
  exact (conj eq_refl (conj Hr Hs)).
Defined.

Lemma people_existing_key_overwritten_witness :
  authenticated Demo.w_update ∧ people_submission Demo.w_update ∧
  ds_has_key (w_store Demo.w_update) "objects" "smith-j" = true ∧
  count is_update (trace (exec people Demo.w_update)) = 1 ∧
  count is_create (trace (exec people Demo.w_update)) = 0 ∧
  ds_read (w_store (after (exec people Demo.w_update))) "objects" "smith-j"
    = Some (to_dict (record_of (w_people_form Demo.w_update))).
Proof.
  destruct (people_existing_key_overwritten Demo.w_update)
    as (Hu & Hc & _ & _ & Hread); [reflexivity..|].
  exact (conj eq_refl (conj eq_refl (conj eq_refl (conj Hu (conj Hc (Hread eq_refl)))))).
Defined.

Lemma people_flash_literals_witness :
  authenticated Demo.w_create ∧ people_submission Demo.w_create ∧
  flashed (trace (exec people Demo.w_create)) = ["{people.cl_people_id} created"].
Proof.
  split; [reflexivity|]. split; [reflexivity|].
  rewrite (people_flash_literals Demo.w_create); reflexivity.
Defined.

Lemma login_wrong_password_unauthorized_witness :
  anonymous Demo.w_bad_password ∧ login_submission Demo.w_bad_password ∧
  password_ok Demo.w_bad_password = false ∧
  result (exec login Demo.w_bad_password) = abort 401 ∧
  after (exec login Demo.w_bad_password) = Demo.w_bad_password.
Proof.
  destruct (login_wrong_password_unauthorized Demo.w_bad_password)
    as (Hr & _ & Ha & _); [reflexivity..|].
  exact (conj eq_refl (conj eq_refl (conj eq_refl (conj Hr Ha)))).
Defined.

Lemma login_decided_by_check_password_witness :
  anonymous Demo.w_unknown_user ∧ login_submission Demo.w_unknown_user ∧
  store_calls (trace (exec login Demo.w_unknown_user)) = [] ∧
  result (exec login Demo.w_unknown_user) = abort 401.
Proof.
  destruct (login_decided_by_check_password Demo.w_unknown_user)
    as (Hs & _ & Hr & _); [reflexivity..|].
  exact (conj eq_refl (conj eq_refl (conj Hs Hr))).
Defined.

Lemma load_user_missing_is_none_witness :
  ds_has_key (w_store Demo.w_stale_session) USERS "ghost" = false ∧
  result (exec (load_user "ghost") Demo.w_stale_session) = None ∧
  w_current_user (after (reload_user Demo.w_stale_session)) = AnonymousUser.
Proof.
  destruct (load_user_missing_is_none Demo.w_stale_session "ghost")
    as (Hr & _ & _ & Hanon); [reflexivity|].
  exact (conj eq_refl (conj Hr (proj1 (Hanon eq_refl)))).
Defined.

(** A correct password binds the identity, and [logout] unbinds it. *)
Example login_then_logout :
  let o := exec login Demo.w_good_password in
  result o = redirect (url_for "index") ∧
  w_session (after o) = Some "alice" ∧
  w_current_user (after (exec logout (after o))) = AnonymousUser ∧
  w_session (after (exec logout (after o))) = None.
Proof. vm_compute. done. Qed.

(** ** Further properties of the handlers *)

Section Coverage.
Context {store : Type} `{!Dataset store, !Models store, !Config, !Repr}.
Implicit Types w : world store.

Lemma exec_load_user_found w (user_id : string) :
  ds_has_key (w_store w) USERS user_id = true →
  let u := User_init (w_store w) user_id in
  exec (load_user user_id) w =
    mkOutcome (Some u) w
      [ Call (HasKey USERS user_id) true;
        Call (NewUser user_id) u;
        Call (Flash ("DEBUG load_user(" +:+ user_id +:+ ") -> " +:+ username u +:+ " "
                     +:+ display_name u
                     +:+ " is_authenticated: " +:+ str_bool (is_authenticated u)
                     +:+ ", is_active: " +:+ str_bool (is_active u)
                     +:+ ", is_anonymous: " +:+ str_bool (is_anonymous u))) tt ].
Proof. intros Hkey. unfold load_user. cbn. by rewrite Hkey. Qed.

Lemma exec_load_user_missing w (user_id : string) :
  ds_has_key (w_store w) USERS user_id = false →
  exec (load_user user_id) w =
    mkOutcome None w
      [ Call (HasKey USERS user_id) false;
        Call (Flash ("DEBUG load_user(" +:+ user_id +:+ "), failed, " +:+ user_id
                     +:+ " not in " +:+ USERS)) tt ].
Proof. intros Hkey. unfold load_user. cbn. by rewrite Hkey. Qed.

(** Case analysis on the four paths of [people]. *)
Ltac people_paths w :=
  let Hauth := fresh "Hauth" in
  let Hval := fresh "Hval" in
  let Hkey := fresh "Hkey" in
  destruct (cu.is_authenticated (w_current_user w)) eqn:Hauth;
  [ destruct (PeopleForm.validate_on_submit (w_people_form w)) eqn:Hval;
    [ destruct (ds_has_key (w_store w) OBJECTS
                  (PeopleForm.cl_people_id (w_people_form w))) eqn:Hkey;
      [ rewrite (exec_people_update w Hauth Hval Hkey)
      | rewrite (exec_people_create w Hauth Hval Hkey) ]
    | rewrite (exec_people_not_validated w Hauth Hval) ]
  | rewrite (exec_people_anonymous w Hauth) ].

(** X1: [load_user] asks the store one question, [has_key(USERS, user_id)],
    and nothing else; it returns the constructed [User] exactly when the
    answer is yes, flashes one debug message either way, and changes
    nothing. *)
Theorem load_user_one_lookup w (user_id : string) :
  let found := ds_has_key (w_store w) USERS user_id in
  let o := exec (load_user user_id) w in
  store_calls (trace o) = [has_key_call USERS user_id found] ∧
  result o = (if found then Some (User_init (w_store w) user_id) else None) ∧
  length (flashed (trace o)) = 1 ∧
  logins (trace o) = [] ∧
  after o = w.
Proof.
  intros found o. subst found o.
  destruct (ds_has_key (w_store w) USERS user_id) eqn:Hkey.
  - by rewrite (exec_load_user_found w user_id Hkey).
  - by rewrite (exec_load_user_missing w user_id Hkey).
Qed.

(** [index] has no guard: for any session it renders the home view with the
    two fixed posts and the current user, asks nothing of the store, flashes
    nothing and changes nothing. *)
Lemma exec_index w :
  let o := exec index w in
  result o = home_view w ∧
  store_calls (trace o) = [] ∧ flashed (trace o) = [] ∧ logins (trace o) = [] ∧
  after o = w.
Proof. done. Qed.

(** X2: the answer of [people] is fixed by the guard alone: the redirect to
    the login view when [current_user] is not authenticated, the people
    view otherwise, whether or not a submission was validated and
    whatever the store answered. *)
Theorem people_response_by_guard w :
  result (exec people w) =
    if cu.is_authenticated (w_current_user w)
    then people_view w
    else redirect (url_for "login").
Proof. people_paths w; done. Qed.

(** X3: [people] never touches the session: the session's user id, the
    bound identity and the request's forms are the same afterwards, and
    [login_user] is never called; only the store can differ. *)
Theorem people_keeps_session w :
  let o := exec people w in
  w_session (after o) = w_session w ∧
  w_current_user (after o) = w_current_user w ∧
  w_people_form (after o) = w_people_form w ∧
  w_login_form (after o) = w_login_form w ∧
  logins (trace o) = [].
Proof. intros o. subst o. people_paths w; done. Qed.

(** X4: every store call [people] makes names the OBJECTS collection and the
    submitted [cl_people_id]; a request that is authenticated and carries a
    validated submission makes one existence check and one write, any other
    request makes no store call at all. *)
Theorem people_store_calls_scoped w :
  let o := exec people w in
  let upsert := cu.is_authenticated (w_current_user w)
                && PeopleForm.validate_on_submit (w_people_form w) in
  Forall (λ c, sc_collection c = OBJECTS
               ∧ sc_key c = PeopleForm.cl_people_id (w_people_form w))
         (store_calls (trace o)) ∧
  count is_has_key (trace o) = (if upsert then 1 else 0) ∧
  count is_write (trace o) = (if upsert then 1 else 0) ∧
  length (store_calls (trace o)) = (if upsert then 2 else 0).
Proof.
  intros o upsert. subst o upsert.
  people_paths w; cbn; (split; [|done]); repeat constructor.
Qed.

(** X5: [people] flashes exactly one message per request, except on an
    authenticated request without a validated submission, where it flashes
    none. *)
Theorem people_flash_count w :
  length (flashed (trace (exec people w))) =
    if cu.is_authenticated (w_current_user w)
       && negb (PeopleForm.validate_on_submit (w_people_form w))
    then 0 else 1.
Proof. people_paths w; done. Qed.
(** X6: on a store that reads back what it wrote, an upsert whose write
    reports success leaves the submitted record under the submitted key,
    whichever branch wrote it; submitting the same form again then takes
    the update branch with the same object and creates nothing. *)
Theorem people_resubmission_updates `{!DatasetLaws store} w :
  authenticated w → people_submission w → write_error w = "" →
  let form := w_people_form w in
  let key := PeopleForm.cl_people_id form in
  let obj := to_dict (record_of form) in
  let w1 := after (exec people w) in
  ds_read (w_store w1) OBJECTS key = Some obj ∧
  ds_has_key (w_store w1) OBJECTS key = true ∧
  store_calls (trace (exec people w1)) =
    [ has_key_call OBJECTS key true;
      update_call OBJECTS key obj (ds_update (w_store w1) OBJECTS key obj).2 ] ∧
  count is_create (trace (exec people w1)) = 0.
Proof.
  intros Hauth Hval Herr form key obj w1.
  assert (Hread : ds_read (w_store w1) OBJECTS key = Some obj).
  { subst w1. unfold write_error in Herr. fold form key obj in Herr.
    destruct (ds_has_key (w_store w) OBJECTS key) eqn:Hkey.
    - rewrite (exec_people_update w Hauth Hval Hkey). cbn. fold form key obj.
      apply (update_read (w_store w)).
      destruct (ds_update (w_store w) OBJECTS key obj) as [s err].
      cbn in *. by rewrite Herr.
    - rewrite (exec_people_create w Hauth Hval Hkey). cbn. fold form key obj.
      apply (create_read (w_store w)).
      destruct (ds_create (w_store w) OBJECTS key obj) as [s err].
      cbn in *. by rewrite Herr. }
  assert (Hkey1 : ds_has_key (w_store w1) OBJECTS key = true).
  { apply has_key_read. by rewrite Hread. }
  assert (Hsame : w_current_user w1 = w_current_user w ∧ w_people_form w1 = w_people_form w).
  { subst w1. people_paths w; done. }
  destruct Hsame as [Hcu Hform]. clearbody w1.
  assert (Hauth1 : authenticated w1) by (unfold authenticated; by rewrite Hcu).
  assert (Hval1 : people_submission w1) by (unfold people_submission; by rewrite Hform).
  split; [done|]. split; [done|].
  assert (Hkey1' : ds_has_key (w_store w1) OBJECTS
                     (PeopleForm.cl_people_id (w_people_form w1)) = true)
    by (by rewrite Hform).
  rewrite (exec_people_update w1 Hauth1 Hval1 Hkey1'). cbn.
  by rewrite Hform.
Qed.

(** *** [login] *)

Lemma exec_login_authenticated w :
  authenticated w →
  exec login w =
    mkOutcome (redirect (url_for "index")) w
      [ Call CurrentUser (w_current_user w);
        Call (Flash ("DEBUG current user is " +:+ cu.username (w_current_user w)
                     +:+ ", redirecting")) tt ].
Proof. unfold authenticated, login. intros Hauth. cbn. by rewrite Hauth. Qed.

Lemma exec_login_not_validated w :
  anonymous w → LoginForm.validate_on_submit (w_login_form w) = false →
  exec login w =
    mkOutcome (login_view w) w
      [ Call CurrentUser (w_current_user w);
        Call NewLoginForm (w_login_form w);
        Call CurrentUser (w_current_user w) ].
Proof.
  unfold anonymous, login. intros Hanon Hval. cbn.
  rewrite Hanon. cbn. by rewrite Hval.
Qed.

(** Case analysis on the four paths of [login]. *)
Ltac login_paths w :=
  let Hauth := fresh "Hauth" in
  let Hval := fresh "Hval" in
  let Hpw := fresh "Hpw" in
  destruct (cu.is_authenticated (w_current_user w)) eqn:Hauth;
  [ rewrite (exec_login_authenticated w Hauth)
  | destruct (LoginForm.validate_on_submit (w_login_form w)) eqn:Hval;
    [ destruct (password_ok w) eqn:Hpw;
      [ rewrite (exec_login_accepted w Hauth Hval Hpw)
      | rewrite (exec_login_rejected w Hauth Hval Hpw) ]
    | rewrite (exec_login_not_validated w Hauth Hval) ] ].

(** X7: a request to [login] on a session that is already authenticated is
    redirected to the home view at once: no form is built, no [User] is
    constructed, no password is checked, [login_user] is not called and
    nothing changes, whatever credentials the request carries. *)
Theorem login_already_authenticated w :
  authenticated w →
  let o := exec login w in
  result o = redirect (url_for "index") ∧
  trace o =
    [ Call CurrentUser (w_current_user w);
      Call (Flash ("DEBUG current user is " +:+ cu.username (w_current_user w)
                   +:+ ", redirecting")) tt ] ∧
  logins (trace o) = [] ∧
  after o = w.
Proof. intros Hauth o. subst o. by rewrite (exec_login_authenticated w Hauth). Qed.

(** X8: on an Anonymous session, a request to [login] without a validated
    submission gets the login form.  The handler reads [current_user],
    builds the form, reads [current_user] again for the view and does
    nothing else: nothing is flashed, no [User] is constructed, no password
    is checked, nobody is logged in, the store is not asked and nothing
    changes. *)
Theorem login_form_rendered w :
  anonymous w → LoginForm.validate_on_submit (w_login_form w) = false →
  let o := exec login w in
  result o = login_view w ∧
  trace o =
    [ Call CurrentUser (w_current_user w);
      Call NewLoginForm (w_login_form w);
      Call CurrentUser (w_current_user w) ] ∧
  constructed (trace o) = [] ∧
  checked (trace o) = [] ∧
  flashed (trace o) = [] ∧
  logins (trace o) = [] ∧
  store_calls (trace o) = [] ∧
  after o = w.
Proof.
  intros Hanon Hval o. subst o. by rewrite (exec_login_not_validated w Hanon Hval).
Qed.
(** X9: a validated submission with a password that [check_password]
    accepts, for a user flask_login regards as active, ends in the redirect
    to the home view with that user bound to the session: [login_user] is
    called once, with the form's [remember_me] and [fresh=True], and the
    last message flashed is the success message. *)
Theorem login_binds_active_user w :
  anonymous w → login_submission w → password_ok w = true →
  is_active (submitted_user w) = true →
  let u := submitted_user w in
  let o := exec login w in
  result o = redirect (url_for "index") ∧
  logins (trace o) = [u] ∧
  trace o !! 4 = Some (Call (LoginUser u (LoginForm.remember_me (w_login_form w)) true) true) ∧
  w_session (after o) = Some (username u) ∧
  w_current_user (after o) = Identity u ∧
  last (flashed (trace o)) = Some "Logged in successfully.".
Proof.
  intros Hanon Hval Hpw Hact u o. subst o u.
  rewrite (exec_login_accepted w Hanon Hval Hpw). cbn zeta. rewrite Hact. done.
Qed.

(** X10: the handler does not look at what [login_user] returns: when the
    password is accepted but the user is not active, [login_user] refuses,
    the session is left as it was, still Anonymous, and the handler
    nevertheless flashes the success message and redirects to the home
    view. *)
Theorem login_inactive_user_reported_success w :
  anonymous w → login_submission w → password_ok w = true →
  is_active (submitted_user w) = false →
  let u := submitted_user w in
  let o := exec login w in
  trace o !! 4 = Some (Call (LoginUser u (LoginForm.remember_me (w_login_form w)) true) false) ∧
  after o = w ∧
  anonymous (after o) ∧
  last (flashed (trace o)) = Some "Logged in successfully." ∧
  result o = redirect (url_for "index").
Proof.
  intros Hanon Hval Hpw Hact u o. subst o u.
  rewrite (exec_login_accepted w Hanon Hval Hpw). cbn zeta. rewrite Hact. done.
Qed.

(** X11: [login] answers [abort(401)] in exactly one situation: the session
    is Anonymous, the submission is validated and [check_password] says
    no; and then the last message flashed is the rejection message. *)
Theorem login_unauthorized_iff w :
  let o := exec login w in
  (result o = abort 401 ↔
     anonymous w ∧ login_submission w ∧ password_ok w = false) ∧
  (result o = abort 401 →
     last (flashed (trace o)) = Some "Invalid username or password").
Proof.
  intros o. subst o. unfold anonymous, login_submission.
  login_paths w; cbn; (split; [split|]); try done; by intros (? & ? & ?).
Qed.

(** X12: [login] never asks the store anything itself and never changes it:
    on every path the trace has no [has_key], [create] or [update] call,
    and the store and the request's forms are the same afterwards. *)
Theorem login_never_touches_store w :
  let o := exec login w in
  store_calls (trace o) = [] ∧
  w_store (after o) = w_store w ∧
  w_people_form (after o) = w_people_form w ∧
  w_login_form (after o) = w_login_form w.
Proof.
  intros o. subst o. login_paths w; try done.
  by destruct (is_active (submitted_user w)).
Qed.

(** X13: after a successful login of an active user, the next request has
    its session restored through [load_user] under the user id that
    [login_user] kept; [/people] is then served exactly when the USERS
    collection has that id and the [User] that [load_user] constructs for
    it is authenticated, and is redirected to the login view otherwise.
    The object [login] itself constructed plays no part. *)
Theorem login_then_people w :
  anonymous w → login_submission w → password_ok w = true →
  is_active (submitted_user w) = true →
  let user_id := username (submitted_user w) in
  let r := reload_user (after (exec login w)) in
  w_session (after (exec login w)) = Some user_id ∧
  store_calls (trace r) =
    [has_key_call USERS user_id (ds_has_key (w_store w) USERS user_id)] ∧
  result (exec people (after r)) =
    if ds_has_key (w_store w) USERS user_id
       && is_authenticated (User_init (w_store w) user_id)
    then people_view (after r)
    else redirect (url_for "login").
Proof.
  intros Hanon Hval Hpw Hact user_id r. subst r user_id.
  rewrite (exec_login_accepted w Hanon Hval Hpw). cbn zeta. rewrite Hact.
  set (u := submitted_user w). set (w1 := set_identity _ _ w).
  assert (Hstore : w_store w1 = w_store w) by done.
  split; [done|]. unfold reload_user.
  change (w_session (after (mkOutcome (redirect (url_for "index")) w1 _)))
    with (Some (username u)).
  change (after (mkOutcome (redirect (url_for "index")) w1 _)) with w1.
  destruct (ds_has_key (w_store w) USERS (username u)) eqn:Hkey.
  - assert (Hkey1 : ds_has_key (w_store w1) USERS (username u) = true) by done.
    rewrite (exec_load_user_found w1 (username u) Hkey1). cbn zeta.
    split; [done|].
    set (w2 := set_identity _ _ _).
    assert (Hcu : w_current_user w2 = Identity (User_init (w_store w) (username u)))
      by done.
    clearbody w2. cbn [andb].
    people_paths w2; rewrite Hcu in *; cbn in *; by rewrite Hauth.
  - assert (Hkey1 : ds_has_key (w_store w1) USERS (username u) = false) by done.
    rewrite (exec_load_user_missing w1 (username u) Hkey1). done.
Qed.

(** *** [logout] and the restoration of the session *)

(** X14: [logout] calls [logout_user] and nothing else.  Whatever the
    session was, the home view it redirects to is then rendered for the
    anonymous user, and a request to [/people] is redirected to the login
    view and asks nothing of the store, which is as it was before the
    logout. *)
Theorem logout_then_people_redirects w :
  let w1 := after (exec logout w) in
  trace (exec logout w) = [Call LogoutUser true] ∧
  result (exec index w1) =
    render_template "index.html" "Home" AnonymousUser
      (ctx_posts [ mkPost "John" "John's And/Or repository item";
                   mkPost "Sarah" "Strange moons of Jupiter item" ]) ∧
  result (exec people w1) = redirect (url_for "login") ∧
  store_calls (trace (exec people w1)) = [] ∧
  w_store (after (exec people w1)) = w_store w.
Proof. done. Qed.

(** X15: a session that names a user the identity collection no longer has
    is restored as anonymous after the one [has_key(USERS, user_id)] call of
    [load_user]; the request to [/people] is then redirected to the login
    view without any call on the OBJECTS collection. *)
Theorem stale_session_cannot_curate w (user_id : string) :
  w_session w = Some user_id →
  ds_has_key (w_store w) USERS user_id = false →
  let r := reload_user w in
  store_calls (trace r) = [has_key_call USERS user_id false] ∧
  result (exec people (after r)) = redirect (url_for "login") ∧
  store_calls (trace (exec people (after r))) = [] ∧
  w_store (after (exec people (after r))) = w_store w.
Proof.
  intros Hsess Hkey r. subst r. unfold reload_user. rewrite Hsess.
  rewrite (exec_load_user_missing w user_id Hkey). done.
Qed.

(** X16: a session that names a user the identity collection has is restored
    with the [User] that [load_user] constructed for that id, the session
    and the store being left as they were. *)
Theorem known_session_restored w (user_id : string) :
  w_session w = Some user_id →
  ds_has_key (w_store w) USERS user_id = true →
  let r := reload_user w in
  w_current_user (after r) = Identity (User_init (w_store w) user_id) ∧
  w_session (after r) = Some user_id ∧
  w_store (after r) = w_store w ∧
  store_calls (trace r) = [has_key_call USERS user_id true].
Proof.
  intros Hsess Hkey r. subst r. unfold reload_user. rewrite Hsess.
  rewrite (exec_load_user_found w user_id Hkey). done.
Qed.
End Coverage.

(** ** The further properties on concrete requests *)

Lemma people_resubmission_updates_witness :
  authenticated Demo.w_create ∧ people_submission Demo.w_create ∧
  write_error Demo.w_create = "" ∧
  ds_has_key (w_store Demo.w_create) "objects" "doe-j" = false ∧
  ds_has_key (w_store (after (exec people Demo.w_create))) "objects" "doe-j" = true ∧
  count is_create (trace (exec people (after (exec people Demo.w_create)))) = 0.
Proof.
  destruct (people_resubmission_updates Demo.w_create)
    as (_ & Hkey & _ & Hnone); [reflexivity..|].
  exact (conj eq_refl (conj eq_refl (conj eq_refl (conj eq_refl (conj Hkey Hnone))))).
Defined.

Lemma login_already_authenticated_witness :
  authenticated Cases.w_login_again ∧
  result (exec login Cases.w_login_again) = redirect (url_for "index") ∧
  after (exec login Cases.w_login_again) = Cases.w_login_again.
Proof.
  destruct (login_already_authenticated Cases.w_login_again)
    as (Hr & _ & _ & Ha); [reflexivity|].
  exact (conj eq_refl (conj Hr Ha)).
Defined.

Lemma login_form_rendered_witness :
  anonymous Cases.w_get_login ∧
  LoginForm.validate_on_submit (w_login_form Cases.w_get_login) = false ∧
  result (exec login Cases.w_get_login) = login_view Cases.w_get_login ∧
  flashed (trace (exec login Cases.w_get_login)) = [].
Proof.
  destruct (login_form_rendered Cases.w_get_login)
    as (Hr & _ & _ & _ & Hf & _); [reflexivity..|].
  exact (conj eq_refl (conj eq_refl (conj Hr Hf))).
Defined.

Lemma login_binds_active_user_witness :
  anonymous Demo.w_good_password ∧ login_submission Demo.w_good_password ∧
  password_ok Demo.w_good_password = true ∧
  is_active (submitted_user Demo.w_good_password) = true ∧
  w_session (after (exec login Demo.w_good_password)) = Some "alice" ∧
  logins (trace (exec login Demo.w_good_password)) = [submitted_user Demo.w_good_password].
Proof.
  destruct (login_binds_active_user Demo.w_good_password)
    as (_ & Hl & _ & Hs & _); [reflexivity..|].
  exact (conj eq_refl (conj eq_refl (conj eq_refl (conj eq_refl (conj Hs Hl))))).
Defined.

Lemma login_inactive_user_reported_success_witness :
  let run := exec (Models0 := Cases.suspended_models) login Demo.w_good_password in
  password_ok (Models0 := Cases.suspended_models) Demo.w_good_password = true ∧
  is_active (submitted_user (Models0 := Cases.suspended_models) Demo.w_good_password) = false ∧
  after run = Demo.w_good_password ∧
  last (flashed (trace run)) = Some "Logged in successfully." ∧
  result run = redirect (url_for "index").
Proof.
  destruct (login_inactive_user_reported_success
              (Models0 := Cases.suspended_models) Demo.w_good_password)
    as (_ & Ha & _ & Hf & Hr); [reflexivity..|].
  exact (conj eq_refl (conj eq_refl (conj Ha (conj Hf Hr)))).
Defined.

Lemma login_unauthorized_iff_witness :
  result (exec login Demo.w_bad_password) = abort 401 ∧
  last (flashed (trace (exec login Demo.w_bad_password)))
    = Some "Invalid username or password".
Proof.
  destruct (login_unauthorized_iff Demo.w_bad_password) as (Hiff & Hmsg).
  assert (Hr : result (exec login Demo.w_bad_password) = abort 401).
  { apply Hiff. repeat split; reflexivity. }
  exact (conj Hr (Hmsg Hr)).
Defined.

Lemma login_then_people_witness :
  let signed := after (exec (Models0 := Cases.mixin_models) login Demo.w_good_password) in
  let restored := after (reload_user (Models0 := Cases.mixin_models) signed) in
  anonymous Demo.w_good_password ∧ login_submission Demo.w_good_password ∧
  password_ok (Models0 := Cases.mixin_models) Demo.w_good_password = true ∧
  is_active (submitted_user (Models0 := Cases.mixin_models) Demo.w_good_password) = true ∧
  w_session signed = Some "alice" ∧
  result (exec (Models0 := Cases.mixin_models) people restored) = people_view restored.
Proof.
  destruct (login_then_people (Models0 := Cases.mixin_models) Demo.w_good_password)
    as (Hs & _ & Hr); [reflexivity..|].
  exact (conj eq_refl (conj eq_refl (conj eq_refl (conj eq_refl (conj Hs Hr))))).
Defined.

Lemma stale_session_cannot_curate_witness :
  w_session Demo.w_stale_session = Some "ghost" ∧
  ds_has_key (w_store Demo.w_stale_session) USERS "ghost" = false ∧
  result (exec people (after (reload_user Demo.w_stale_session)))
    = redirect (url_for "login").
Proof.
  destruct (stale_session_cannot_curate Demo.w_stale_session "ghost")
    as (_ & Hr & _); [reflexivity..|].
  exact (conj eq_refl (conj eq_refl Hr)).
Defined.

Lemma known_session_restored_witness :
  w_session Cases.w_known_session = Some "alice" ∧
  ds_has_key (w_store Cases.w_known_session) USERS "alice" = true ∧
  cu.username (w_current_user (after (reload_user Cases.w_known_session))) = "alice".
Proof.
  destruct (known_session_restored Cases.w_known_session "alice")
    as (Hcu & _); [reflexivity..|].
  refine (conj eq_refl (conj eq_refl _)). by rewrite Hcu.
Defined.
